(** * great_expectations.core.added_diagnostics

    A shallow embedding of [great_expectations/core/added_diagnostics.py]
    and the properties of its diagnostics objects: the [is_added] flag,
    the two raising strategies and the merge of child diagnostics into a
    parent. *)

From Stdlib Require Import String List Bool Arith Lia.
Import ListNotations.
Local Open Scope list_scope.

Set Implicit Arguments.

(* ===================================================================== *)
(** ** The exception classes *)
(* ===================================================================== *)

(** Modelled from the spec: the classes imported from
    [great_expectations.exceptions.exceptions], whose module is not part of
    the sources at hand.  The spec lists one "resource not added" error kind
    per resource kind, all specialising [ResourceNotAddedError], and the
    aggregate "resources not added" kinds, all specialising
    [ResourcesNotAddedError]. *)
Inductive ResourceNotAddedErrorClass : Type :=
| ResourceNotAddedError
| BatchDefinitionNotAddedError
| CheckpointNotAddedError
| ExpectationSuiteNotAddedError
| ValidationDefinitionNotAddedError.

Inductive ResourcesNotAddedErrorClass : Type :=
| ResourcesNotAddedError
| ValidationDefinitionRelatedResourcesNotAddedError
| CheckpointRelatedResourcesNotAddedError.

Definition error_class_eqb (c d : ResourceNotAddedErrorClass) : bool :=
  match c, d with
  | ResourceNotAddedError, ResourceNotAddedError
  | BatchDefinitionNotAddedError, BatchDefinitionNotAddedError
  | CheckpointNotAddedError, CheckpointNotAddedError
  | ExpectationSuiteNotAddedError, ExpectationSuiteNotAddedError
  | ValidationDefinitionNotAddedError, ValidationDefinitionNotAddedError => true
  | _, _ => false
  end.

(** [issubclass c d]: every error class derives from [ResourceNotAddedError]
    and from itself, and from nothing else. *)
Definition issubclass (c d : ResourceNotAddedErrorClass) : bool :=
  match d with
  | ResourceNotAddedError => true
  | _ => error_class_eqb c d
  end.

(** An error instance: its class and the name of the resource it reports. *)
Record error : Type := mk_error {
  error_class : ResourceNotAddedErrorClass;
  error_name : string
}.

Definition isinstance (e : error) (c : ResourceNotAddedErrorClass) : bool :=
  issubclass (error_class e) c.

(** What a call can raise: one of the recorded errors ([raise self.errors[0]]),
    an aggregate built by [exception_class(errors=...)], which keeps the list
    it is given, or one of the two built-in exceptions the module can reach. *)
Inductive exn : Type :=
| Resource (e : error)
| Resources (cls : ResourcesNotAddedErrorClass) (errors : list error)
| IndexError
| NotImplementedError.

(* ===================================================================== *)
(** ** Calls: a result and the receiver after the call *)
(* ===================================================================== *)

Inductive result (A : Type) : Type :=
| Return (a : A)
| Raise (x : exn).

Arguments Return {A} a.
Arguments Raise {A} x.

(** A method body reads and writes its receiver of type [S] and either
    returns or raises; the receiver is handed back in both cases. *)
Definition M (S A : Type) : Type := S -> result A * S.

Definition ret {S A} (a : A) : M S A := fun s => (Return a, s).

Definition raise {S A} (x : exn) : M S A := fun s => (Raise x, s).

Definition bind {S A B} (m : M S A) (k : A -> M S B) : M S B :=
  fun s =>
    match m s with
    | (Return a, s') => k a s'
    | (Raise x, s') => (Raise x, s')
    end.

Definition get {S} : M S S := fun s => (Return s, s).

Definition put {S} (s : S) : M S unit := fun _ => (Return tt, s).

Declare Scope method_scope.
Delimit Scope method_scope with method.
Notation "x <- m ;; k" := (bind m (fun x => k))
  (at level 61, m at next level, right associativity) : method_scope.
Notation "m ;; k" := (bind m (fun _ => k))
  (at level 61, right associativity) : method_scope.
Local Open Scope method_scope.

(** The outcome of a call and the receiver it leaves behind. *)
Definition outcome {S A} (m : M S A) (s : S) : result A := fst (m s).
Definition after {S A} (m : M S A) (s : S) : S := snd (m s).

(** [l[i]] for a non-negative index: [IndexError] out of range. *)
Definition getitem {S A} (l : list A) (i : nat) : M S A :=
  match nth_error l i with
  | Some a => ret a
  | None => raise IndexError
  end.

(* ===================================================================== *)
(** ** class AddedDiagnostics *)
(* ===================================================================== *)

(** The dataclass has the single field [errors]. *)
Record AddedDiagnostics : Type := mk_diagnostics {
  errors : list error
}.

(** The constructor the [dataclass] decorator generates stores its argument;
    the class does not derive from [ABC], so the abstract method does not
    stand in the way of instantiation. *)
Definition __init__ (errors : list error) : result AddedDiagnostics :=
  Return (mk_diagnostics errors).

Definition is_added (self : AddedDiagnostics) : bool :=
  length (errors self) =? 0.

Module AddedDiagnostics_.

Definition raise_for_errors : M AddedDiagnostics unit :=
  raise NotImplementedError.

End AddedDiagnostics_.

(* ===================================================================== *)
(** ** class _ChildAddedDiagnostics *)
(* ===================================================================== *)

Module _ChildAddedDiagnostics.

Definition raise_for_errors : M AddedDiagnostics unit :=
  self <- get ;;
  if negb (is_added self) then
    e <- getitem (errors self) 0 ;;
    raise (Resource e)
  else ret tt.

End _ChildAddedDiagnostics.

(** [BatchDefinitionAddedDiagnostics] and [ExpectationSuiteAddedDiagnostics]
    add nothing to [_ChildAddedDiagnostics]. *)
Module BatchDefinitionAddedDiagnostics.
Definition raise_for_errors := _ChildAddedDiagnostics.raise_for_errors.
End BatchDefinitionAddedDiagnostics.

Module ExpectationSuiteAddedDiagnostics.
Definition raise_for_errors := _ChildAddedDiagnostics.raise_for_errors.
End ExpectationSuiteAddedDiagnostics.

(* ===================================================================== *)
(** ** class _ParentAddedDiagnostics *)
(* ===================================================================== *)

(** The three class variables a concrete parent class sets. *)
Record ParentClass : Type := mk_parent_class {
  parent_error_class : ResourceNotAddedErrorClass;
  children_error_classes : list ResourceNotAddedErrorClass;
  exception_class : ResourcesNotAddedErrorClass
}.

Definition ValidationDefinitionAddedDiagnostics : ParentClass :=
  {| parent_error_class := ValidationDefinitionNotAddedError;
     children_error_classes :=
       [ExpectationSuiteNotAddedError; BatchDefinitionNotAddedError];
     exception_class := ValidationDefinitionRelatedResourcesNotAddedError |}.

Definition CheckpointAddedDiagnostics : ParentClass :=
  {| parent_error_class := CheckpointNotAddedError;
     children_error_classes := [ValidationDefinitionNotAddedError];
     exception_class := CheckpointRelatedResourcesNotAddedError |}.

(** A positional argument of [update_with_children] is a reference to a
    diagnostics object.  The call writes to its receiver only, so a reference
    is either the receiver itself, whose field is read when the loop reaches
    it, or another object, whose field stays what it was. *)
Inductive reference : Type :=
| Self
| Other (diagnostics : AddedDiagnostics).

Definition deref (self : AddedDiagnostics) (r : reference) : AddedDiagnostics :=
  match r with
  | Self => self
  | Other diagnostics => diagnostics
  end.

Module _ParentAddedDiagnostics.

Fixpoint update_with_children (children_diagnostics : list reference)
  : M AddedDiagnostics unit :=
  match children_diagnostics with
  | [] => ret tt
  | diagnostics :: rest =>
      self <- get ;;
      put (mk_diagnostics (errors (deref self diagnostics) ++ errors self)) ;;
      update_with_children rest
  end.

Section Methods.

Variable cls : ParentClass.

Definition raise_for_errors : M AddedDiagnostics unit :=
  self <- get ;;
  if negb (is_added self) then
    raise (Resources (exception_class cls) (errors self))
  else ret tt.

(** [len(self.errors) == 1 and isinstance(self.errors[0], ...)]: the
    right operand of [and] is evaluated only when the left one holds. *)
Definition _dependencies_added_except_parent : M AddedDiagnostics bool :=
  self <- get ;;
  if length (errors self) =? 1 then
    e <- getitem (errors self) 0 ;;
    ret (isinstance e (parent_error_class cls))
  else ret false.

(** [not self.is_added and not self._dependencies_added_except_parent]:
    the property is read only when the receiver is not added. *)
Definition raise_for_errors_except_parent_not_added_error
  : M AddedDiagnostics unit :=
  self <- get ;;
  if negb (is_added self) then
    except_parent <- _dependencies_added_except_parent ;;
    if negb except_parent then
      raise (Resources (exception_class cls) (errors self))
    else ret tt
  else ret tt.

End Methods.

End _ParentAddedDiagnostics.

(** The two parent classes the module defines. *)
Definition defined_parent_class (cls : ParentClass) : Prop :=
  cls = ValidationDefinitionAddedDiagnostics \/ cls = CheckpointAddedDiagnostics.

(** Some errors to run the methods on. *)
Definition suite_error : error :=
  mk_error ExpectationSuiteNotAddedError "my_suite".
Definition batch_definition_error : error :=
  mk_error BatchDefinitionNotAddedError "my_batch_definition".
Definition validation_definition_error : error :=
  mk_error ValidationDefinitionNotAddedError "my_validation_definition".
Definition checkpoint_error : error :=
  mk_error CheckpointNotAddedError "my_checkpoint".

(* ===================================================================== *)
(** ** Running the methods *)
(* ===================================================================== *)

Import _ParentAddedDiagnostics.

Ltac unfold_method :=
  unfold outcome, after,
    AddedDiagnostics_.raise_for_errors,
    BatchDefinitionAddedDiagnostics.raise_for_errors,
    ExpectationSuiteAddedDiagnostics.raise_for_errors,
    _ChildAddedDiagnostics.raise_for_errors,
    raise_for_errors, raise_for_errors_except_parent_not_added_error,
    _dependencies_added_except_parent,
    getitem, bind, get, put, ret, raise, is_added.

Ltac run_method self :=
  unfold_method; destruct self as [[| ? [| ? ?]]]; simpl.

Lemma is_added_nil (l : list error) :
  is_added (mk_diagnostics l) = match l with [] => true | _ :: _ => false end.
Proof. destruct l; reflexivity. Qed.

Lemma is_added_app (l l' : list error) :
  is_added (mk_diagnostics (l ++ l'))
  = is_added (mk_diagnostics l) && is_added (mk_diagnostics l').
Proof. destruct l, l'; reflexivity. Qed.

(** A full description of what the child's call does. *)
Lemma child_raise_for_errors_run (self : AddedDiagnostics) :
  _ChildAddedDiagnostics.raise_for_errors self
  = (match errors self with
     | [] => Return tt
     | e :: _ => Raise (Resource e)
     end, self).
Proof. run_method self; reflexivity. Qed.

Lemma parent_raise_for_errors_run (cls : ParentClass) (self : AddedDiagnostics) :
  raise_for_errors cls self
  = (match errors self with
     | [] => Return tt
     | _ :: _ => Raise (Resources (exception_class cls) (errors self))
     end, self).
Proof. run_method self; reflexivity. Qed.

Lemma dependencies_added_except_parent_run
    (cls : ParentClass) (self : AddedDiagnostics) :
  _dependencies_added_except_parent cls self
  = (Return match errors self with
            | [e] => isinstance e (parent_error_class cls)
            | _ => false
            end, self).
Proof. run_method self; reflexivity. Qed.

Lemma raise_for_errors_except_parent_run
    (cls : ParentClass) (self : AddedDiagnostics) :
  raise_for_errors_except_parent_not_added_error cls self
  = (match errors self with
     | [] => Return tt
     | [e] =>
         if isinstance e (parent_error_class cls) then Return tt
         else Raise (Resources (exception_class cls) [e])
     | _ :: _ :: _ => Raise (Resources (exception_class cls) (errors self))
     end, self).
Proof.
  run_method self; try reflexivity.
  destruct (isinstance _ _); reflexivity.
Qed.

Lemma isinstance_defined_parent (cls : ParentClass) (e : error) :
  defined_parent_class cls ->
  isinstance e (parent_error_class cls) = true
  <-> error_class e = parent_error_class cls.
Proof.
  intros [-> | ->]; destruct e as [[] name]; simpl;
    split; intros H; (reflexivity || discriminate H).
Qed.

(** The merge of children that are all objects other than the receiver:
    each list is put in front of what is there, so a later child ends up
    before an earlier one. *)
Lemma update_with_children_others
    (children : list AddedDiagnostics) (self : AddedDiagnostics) :
  update_with_children (map Other children) self
  = (Return tt,
     mk_diagnostics (concat (rev (map errors children)) ++ errors self)).
Proof.
  revert self. induction children as [| child rest IH]; intros self.
  - destruct self; reflexivity.
  - simpl. unfold bind at 1. simpl. unfold bind at 1. simpl.
    rewrite IH. simpl.
    rewrite concat_app. simpl. rewrite app_nil_r, <- app_assoc.
    reflexivity.
Qed.

Lemma update_with_children_returns
    (children : list reference) (self : AddedDiagnostics) :
  outcome (update_with_children children) self = Return tt.
Proof.
  revert self. induction children as [| child rest IH]; intros self.
  - reflexivity.
  - unfold outcome in *. simpl. unfold bind at 1. simpl.
    unfold bind at 1. simpl. apply IH.
Qed.

Lemma update_with_children_is_added
    (children : list reference) (self : AddedDiagnostics) :
  is_added (after (update_with_children children) self)
  = is_added self
    && forallb (fun child => is_added (deref self child)) children.
Proof.
  revert self. induction children as [| child rest IH]; intros self.
  - unfold after. simpl. now rewrite andb_true_r.
  - unfold after in *. simpl. unfold bind at 1. simpl.
    unfold bind at 1. simpl. rewrite IH, is_added_app.
    destruct self as [l], (deref (mk_diagnostics l) child) as [c] eqn:Hc.
    simpl errors. rewrite !is_added_nil.
    destruct c; [| now destruct l]. destruct l; [| reflexivity].
    simpl. f_equal.
Qed.

(** Concrete runs. *)
Example child_raises_first :
  _ChildAddedDiagnostics.raise_for_errors
    (mk_diagnostics [suite_error; batch_definition_error])
  = (Raise (Resource suite_error),
     mk_diagnostics [suite_error; batch_definition_error]).
Proof. reflexivity. Qed.

Example checkpoint_only_parent_missing :
  outcome
    (raise_for_errors_except_parent_not_added_error CheckpointAddedDiagnostics)
    (mk_diagnostics [checkpoint_error])
  = Return tt.
Proof. reflexivity. Qed.

Example checkpoint_parent_and_child_missing :
  outcome
    (raise_for_errors_except_parent_not_added_error CheckpointAddedDiagnostics)
    (mk_diagnostics [checkpoint_error; validation_definition_error])
  = Raise (Resources CheckpointRelatedResourcesNotAddedError
             [checkpoint_error; validation_definition_error]).
Proof. reflexivity. Qed.

Example validation_definition_merge :
  after
    (update_with_children
       [Other (mk_diagnostics [suite_error]);
        Other (mk_diagnostics [batch_definition_error])])
    (mk_diagnostics [validation_definition_error])
  = mk_diagnostics
      [batch_definition_error; suite_error; validation_definition_error].
Proof. reflexivity. Qed.

(** A parent passed to its own merge is read as the loop finds it. *)
Example merge_with_itself :
  after
    (update_with_children [Other (mk_diagnostics [suite_error]); Self])
    (mk_diagnostics [validation_definition_error])
  = mk_diagnostics
      [suite_error; validation_definition_error;
       suite_error; validation_definition_error].
Proof. reflexivity. Qed.

(* ===================================================================== *)
(** ** Properties *)
(* ===================================================================== *)

(** C3: a diagnostics object is added exactly when its error list is
    empty. *)
Theorem is_added_iff_no_errors (self : AddedDiagnostics) :
  is_added self = true <-> errors self = [].
Proof.
  destruct self as [l]. rewrite is_added_nil. simpl.
  destruct l; split; intros H; (reflexivity || discriminate H).
Qed.

(** C4: for a childless diagnostics, [raise_for_errors] returns when the
    error list is empty and otherwise raises the first recorded error, that
    very object. *)
Theorem child_raise_for_errors_first_error (self : AddedDiagnostics) :
  outcome _ChildAddedDiagnostics.raise_for_errors self
  = match errors self with
    | [] => Return tt
    | first :: _ => Raise (Resource first)
    end
  /\ outcome BatchDefinitionAddedDiagnostics.raise_for_errors self
     = outcome _ChildAddedDiagnostics.raise_for_errors self
  /\ outcome ExpectationSuiteAddedDiagnostics.raise_for_errors self
     = outcome _ChildAddedDiagnostics.raise_for_errors self.
Proof.
  repeat split. unfold outcome.
  now rewrite child_raise_for_errors_run.
Qed.

(** C8: the element access [self.errors[0]] of the childless
    [raise_for_errors] is always in range: it is evaluated on a non-empty
    list only, where it succeeds, and so the call never ends in
    [IndexError]. *)
Theorem child_raise_for_errors_in_range (self : AddedDiagnostics) :
  (if negb (is_added self)
   then exists first,
          getitem (errors self) 0 self = (Return first, self)
   else outcome _ChildAddedDiagnostics.raise_for_errors self = Return tt)
  /\ outcome _ChildAddedDiagnostics.raise_for_errors self <> Raise IndexError.
Proof.
  split.
  - run_method self; eauto.
  - unfold outcome. rewrite child_raise_for_errors_run. simpl.
    destruct (errors self); discriminate.
Qed.

(** C5: for a parent diagnostics, [raise_for_errors] returns when the error
    list is empty and otherwise raises the aggregate exception of the class,
    built from the whole error list in its recorded order. *)
Theorem parent_raise_for_errors_aggregate
    (cls : ParentClass) (self : AddedDiagnostics) :
  outcome (raise_for_errors cls) self
  = match errors self with
    | [] => Return tt
    | _ :: _ => Raise (Resources (exception_class cls) (errors self))
    end.
Proof. unfold outcome. now rewrite parent_raise_for_errors_run. Qed.

(** C6: constructing a diagnostics object from a list of errors never
    raises, and the error list read back is that list: the same number of
    errors, in the same order. *)
Theorem init_round_trip (l : list error) :
  exists self,
    __init__ l = Return self
    /\ errors self = l
    /\ length (errors self) = length l
    /\ forall i, nth_error (errors self) i = nth_error l i.
Proof. exists (mk_diagnostics l). repeat split. Qed.

(** C9: neither [raise_for_errors] (of the base class, of a childless class
    or of a parent class) nor
    [raise_for_errors_except_parent_not_added_error] changes the error list
    of its receiver, whether the call returns or raises. *)
Theorem raising_methods_leave_errors (cls : ParentClass)
    (self : AddedDiagnostics) :
  errors (after AddedDiagnostics_.raise_for_errors self) = errors self
  /\ errors (after _ChildAddedDiagnostics.raise_for_errors self) = errors self
  /\ errors (after (raise_for_errors cls) self) = errors self
  /\ errors (after (raise_for_errors_except_parent_not_added_error cls) self)
     = errors self.
Proof.
  unfold after.
  rewrite child_raise_for_errors_run, parent_raise_for_errors_run,
    raise_for_errors_except_parent_run.
  repeat split.
Qed.

(** C10: after [update_with_children], which always returns, the parent is
    added exactly when it was added before the call and every child passed
    is added; a child may be the parent itself. *)
Theorem update_with_children_is_added_iff
    (children : list reference) (self : AddedDiagnostics) :
  outcome (update_with_children children) self = Return tt
  /\ (is_added (after (update_with_children children) self) = true
      <-> is_added self = true
          /\ Forall (fun child => is_added (deref self child) = true)
               children).
Proof.
  split; [apply update_with_children_returns |].
  rewrite update_with_children_is_added, andb_true_iff, forallb_forall,
    Forall_forall.
  reflexivity.
Qed.

(** C1, as stated, fails: with children [[A]] and [[B]] passed in that
    order to a parent holding [[P]], the list is not [[A; B; P]]. *)
Lemma update_with_children_order_counterexample :
  errors
    (after
       (update_with_children
          [Other (mk_diagnostics [suite_error]);
           Other (mk_diagnostics [batch_definition_error])])
       (mk_diagnostics [validation_definition_error]))
  <> [suite_error; batch_definition_error; validation_definition_error].
Proof. vm_compute. discriminate. Qed.

(** C1, amended: for a parent whose error list is [[P]] and two children,
    other objects than the parent, whose error lists are [[A]] and [[B]],
    passed in that order, [update_with_children] returns and leaves the
    error list [[B; A; P]]: every child error comes before the parent's
    own, and the child passed later comes first. *)
Theorem update_with_children_order (A B P : error) :
  outcome
    (update_with_children
       [Other (mk_diagnostics [A]); Other (mk_diagnostics [B])])
    (mk_diagnostics [P])
  = Return tt
  /\ errors
       (after
          (update_with_children
             [Other (mk_diagnostics [A]); Other (mk_diagnostics [B])])
          (mk_diagnostics [P]))
     = [B; A; P].
Proof.
  unfold outcome, after.
  change [Other (mk_diagnostics [A]); Other (mk_diagnostics [B])]
    with (map Other [mk_diagnostics [A]; mk_diagnostics [B]]).
  rewrite update_with_children_others. split; reflexivity.
Qed.

(** C2, as stated, fails: on the empty error list the call returns, and
    the empty list is not a one-element list. *)
Lemma raise_except_parent_empty_counterexample :
  ~ (outcome
       (raise_for_errors_except_parent_not_added_error
          CheckpointAddedDiagnostics)
       (mk_diagnostics [])
     = Return tt
     <-> exists e,
           errors (mk_diagnostics []) = [e]
           /\ isinstance e (parent_error_class CheckpointAddedDiagnostics)
              = true).
Proof.
  intros [Hreturns _].
  destruct (Hreturns eq_refl) as [e [Hone _]]. discriminate Hone.
Qed.

(** C2, amended: for a parent diagnostics,
    [raise_for_errors_except_parent_not_added_error] returns when and only
    when the error list is empty or is a one-element list holding an
    instance of the parent-not-added error class; in every other case,
    such as the parent-not-added error together with another error, it
    raises the aggregate exception of the class over the whole list. *)
Theorem raise_except_parent_returns_iff
    (cls : ParentClass) (self : AddedDiagnostics) :
  (outcome (raise_for_errors_except_parent_not_added_error cls) self
   = Return tt
   <-> errors self = []
       \/ exists e,
            errors self = [e]
            /\ isinstance e (parent_error_class cls) = true)
  /\ (outcome (raise_for_errors_except_parent_not_added_error cls) self
      = Return tt
      \/ outcome (raise_for_errors_except_parent_not_added_error cls) self
         = Raise (Resources (exception_class cls) (errors self))).
Proof.
  unfold outcome. rewrite raise_for_errors_except_parent_run.
  destruct self as [[| e [| e' rest]]]; simpl.
  - split; [| now left]. split; [now left | reflexivity].
  - destruct (isinstance e (parent_error_class cls)) eqn:He.
    + split; [| now left].
      split; [| reflexivity]. intros _. right. now exists e.
    + split; [| now right].
      split; [discriminate |].
      intros [Hnil | [e0 [Hone Hinst]]]; [discriminate Hnil |].
      injection Hone as <-. congruence.
  - split; [| now right].
    split; [discriminate |].
    intros [Hnil | [e0 [Hone _]]]; discriminate.
Qed.

(** C7: for the parent classes the module defines, the call
    [raise_for_errors_except_parent_not_added_error] holds back what
    [raise_for_errors] raises only when the sole recorded error is of the
    parent-not-added class set for that very class; a sole error of any
    other class, another parent's class included, is raised in the
    aggregate exception. *)
Theorem suppression_is_per_parent_class
    (cls : ParentClass) (self : AddedDiagnostics) :
  defined_parent_class cls ->
  ((outcome (raise_for_errors cls) self <> Return tt
    /\ outcome (raise_for_errors_except_parent_not_added_error cls) self
       = Return tt)
   <-> exists e,
         errors self = [e] /\ error_class e = parent_error_class cls)
  /\ forall e,
       errors self = [e] ->
       error_class e <> parent_error_class cls ->
       outcome (raise_for_errors_except_parent_not_added_error cls) self
       = Raise (Resources (exception_class cls) [e]).
Proof.
  intros Hcls. unfold outcome.
  rewrite parent_raise_for_errors_run, raise_for_errors_except_parent_run.
  pose proof (isinstance_defined_parent) as Hinst.
  destruct self as [[| e [| e' rest]]]; simpl.
  - split.
    + split; [intros [Hraises _]; now elim Hraises |].
      intros [e0 [Hone _]]; discriminate.
    + intros e0 Hone; discriminate.
  - specialize (Hinst cls e Hcls).
    destruct (isinstance e (parent_error_class cls)) eqn:He.
    + split.
      * split; [| intros _; split; [discriminate | reflexivity]].
        intros _. exists e. split; [reflexivity | now apply Hinst].
      * intros e0 Hone Hother. injection Hone as <-.
        elim Hother. now apply Hinst.
    + split.
      * split; [intros [_ Hreturns]; discriminate |].
        intros [e0 [Hone Hsame]]. injection Hone as <-.
        apply Hinst in Hsame. discriminate.
      * intros e0 Hone _. now injection Hone as <-.
  - split.
    + split; [intros [_ Hreturns]; discriminate |].
      intros [e0 [Hone _]]; discriminate.
    + intros e0 Hone; discriminate.
Qed.

(** A checkpoint diagnostics whose only error says that a validation
    definition was not added still raises. *)
Lemma suppression_is_per_parent_class_witness :
  defined_parent_class CheckpointAddedDiagnostics
  /\ error_class validation_definition_error
     <> parent_error_class CheckpointAddedDiagnostics
  /\ outcome
       (raise_for_errors_except_parent_not_added_error
          CheckpointAddedDiagnostics)
       (mk_diagnostics [validation_definition_error])
     = Raise (Resources CheckpointRelatedResourcesNotAddedError
                [validation_definition_error]).
Proof.
  assert (Hcls : defined_parent_class CheckpointAddedDiagnostics)
    by (right; reflexivity).
  assert (Hother : error_class validation_definition_error
                   <> parent_error_class CheckpointAddedDiagnostics)
    by (simpl; discriminate).
  split; [exact Hcls |]. split; [exact Hother |].
  exact (proj2
           (suppression_is_per_parent_class
              (mk_diagnostics [validation_definition_error]) Hcls)
           validation_definition_error eq_refl Hother).
Defined.

(* ===================================================================== *)
(** ** The merge in general *)
(* ===================================================================== *)

Lemma update_with_children_cons
    (child : reference) (rest : list reference) (self : AddedDiagnostics) :
  update_with_children (child :: rest) self
  = update_with_children rest
      (mk_diagnostics (errors (deref self child) ++ errors self)).
Proof. reflexivity. Qed.

Lemma deref_same_errors (self self' : AddedDiagnostics) (child : reference) :
  errors self' = errors self -> deref self' child = deref self child.
Proof.
  destruct self as [l], self' as [l'], child; simpl; congruence.
Qed.

Lemma children_error_not_parent_error (cls : ParentClass) (e : error) :
  defined_parent_class cls ->
  In (error_class e) (children_error_classes cls) ->
  isinstance e (parent_error_class cls) = false.
Proof.
  intros [-> | ->] Hin; destruct e as [c name]; simpl in *;
    repeat (destruct Hin as [<- | Hin]; [reflexivity |]); contradiction.
Qed.

Lemma raise_except_parent_other_error
    (cls : ParentClass) (self : AddedDiagnostics) (e : error) :
  In e (errors self) ->
  isinstance e (parent_error_class cls) = false ->
  outcome (raise_for_errors_except_parent_not_added_error cls) self
  = Raise (Resources (exception_class cls) (errors self)).
Proof.
  intros Hin Hother. unfold outcome.
  rewrite raise_for_errors_except_parent_run.
  destruct self as [[| e0 [| e1 rest]]]; simpl in *.
  - contradiction.
  - destruct Hin as [-> | []]. now rewrite Hother.
  - reflexivity.
Qed.

(** X1: merging children that are objects other than the parent leaves the
    concatenation of the children's lists, last child first, followed by the
    parent's own list; inside each list the order is kept. *)
Theorem merge_of_other_children
    (children : list AddedDiagnostics) (self : AddedDiagnostics) :
  errors (after (update_with_children (map Other children)) self)
  = concat (rev (map errors children)) ++ errors self.
Proof.
  unfold after. now rewrite update_with_children_others.
Qed.

(** X2: one call of [update_with_children] with the children [xs] followed
    by [ys] does what a call with [xs] and then a call with [ys] do, the
    parent itself among the children or not. *)
Theorem update_with_children_app
    (xs ys : list reference) (self : AddedDiagnostics) :
  update_with_children (xs ++ ys) self
  = (update_with_children xs ;; update_with_children ys) self.
Proof.
  revert self. induction xs as [| child rest IH]; intros self.
  - reflexivity.
  - simpl app. rewrite update_with_children_cons, IH.
    unfold bind. cbv beta. now rewrite update_with_children_cons.
Qed.

(** X3: when every child passed is added, [update_with_children] leaves
    the parent as it was. *)
Theorem update_with_added_children_unchanged
    (children : list reference) (self : AddedDiagnostics) :
  Forall (fun child => is_added (deref self child) = true) children ->
  after (update_with_children children) self = self.
Proof.
  unfold after. induction children as [| child rest IH]; intros Hall.
  - reflexivity.
  - inversion Hall as [| ? ? Hchild Hrest]; subst.
    rewrite update_with_children_cons.
    destruct (deref self child) as [[| e l]] eqn:Hc; [| discriminate Hchild].
    simpl. destruct self as [l]. now apply IH.
Qed.

Lemma update_with_added_children_unchanged_witness :
  Forall
    (fun child =>
       is_added (deref (mk_diagnostics [checkpoint_error]) child) = true)
    [Other (mk_diagnostics []); Other (mk_diagnostics [])]
  /\ after
       (update_with_children
          [Other (mk_diagnostics []); Other (mk_diagnostics [])])
       (mk_diagnostics [checkpoint_error])
     = mk_diagnostics [checkpoint_error].
Proof.
  assert (Hall :
    Forall
      (fun child =>
         is_added (deref (mk_diagnostics [checkpoint_error]) child) = true)
      [Other (mk_diagnostics []); Other (mk_diagnostics [])])
    by (repeat constructor).
  split; [exact Hall |].
  exact (@update_with_added_children_unchanged _ _ Hall).
Defined.

Lemma update_with_children_in_iff
    (children : list reference) (self : AddedDiagnostics) (e : error) :
  In e (errors (after (update_with_children children) self))
  <-> In e (errors self)
      \/ exists child, In child children /\ In e (errors (deref self child)).
Proof.
  unfold after. revert self.
  induction children as [| child rest IH]; intros self.
  - simpl. split; [now left |]. intros [H | [c [[] _]]]. exact H.
  - rewrite update_with_children_cons, IH. simpl errors at 1.
    rewrite in_app_iff. split.
    + intros [[Hchild | Hself] | [c [Hc Hin]]].
      * right. exists child. split; [now left | exact Hchild].
      * now left.
      * destruct c as [| other]; simpl in Hin.
        -- apply in_app_iff in Hin as [Hchild | Hself]; [| now left].
           right. exists child. split; [now left | exact Hchild].
        -- right. exists (Other other). split; [now right | exact Hin].
    + intros [Hself | [c [[<- | Hc] Hin]]].
      * left. now right.
      * left. now left.
      * destruct c as [| other]; simpl in Hin.
        -- left. now right.
        -- right. exists (Other other). split; [exact Hc | exact Hin].
Qed.

(** X4: the merge neither loses nor invents an error: an error is in the
    parent's list after [update_with_children] exactly when it was in the
    parent's list before or in the list of one of the children. *)
Theorem update_with_children_membership
    (children : list reference) (self : AddedDiagnostics) (e : error) :
  In e (errors (after (update_with_children children) self))
  <-> In e (errors self)
      \/ exists child, In child children /\ In e (errors (deref self child)).
Proof. apply update_with_children_in_iff. Qed.

(** X5: whatever is merged, the parent itself included, the parent's own
    errors stay at the end of its list, in their order. *)
Theorem update_with_children_keeps_own_errors_last
    (children : list reference) (self : AddedDiagnostics) :
  exists child_errors,
    errors (after (update_with_children children) self)
    = child_errors ++ errors self.
Proof.
  unfold after. revert self.
  induction children as [| child rest IH]; intros self.
  - now exists [].
  - rewrite update_with_children_cons.
    destruct (IH (mk_diagnostics (errors (deref self child) ++ errors self)))
      as [prefix Hprefix].
    exists (prefix ++ errors (deref self child)).
    rewrite Hprefix. simpl. now rewrite app_assoc.
Qed.

(* ===================================================================== *)
(** ** Merging, then raising *)
(* ===================================================================== *)

Lemma bind_update_with_children {A : Type}
    (children : list reference) (k : M AddedDiagnostics A)
    (self : AddedDiagnostics) :
  (update_with_children children ;; k) self
  = k (after (update_with_children children) self).
Proof.
  pose proof (update_with_children_returns children self) as Hret.
  unfold outcome, after, bind in *.
  destruct (update_with_children children self) as [r s]. simpl in *.
  now rewrite Hret.
Qed.

(** X6: a merge followed by [raise_for_errors] returns when the parent and
    every child were added, and otherwise raises the aggregate exception of
    the class over the merged list. *)
Theorem merge_then_raise_for_errors
    (cls : ParentClass) (children : list reference)
    (self : AddedDiagnostics) :
  outcome (update_with_children children ;; raise_for_errors cls) self
  = if is_added self
       && forallb (fun child => is_added (deref self child)) children
    then Return tt
    else Raise
           (Resources (exception_class cls)
              (errors (after (update_with_children children) self))).
Proof.
  unfold outcome at 1. rewrite bind_update_with_children.
  rewrite <- update_with_children_is_added, parent_raise_for_errors_run.
  destruct (after (update_with_children children) self) as [[| e l]];
    reflexivity.
Qed.

(** X7: [_dependencies_added_except_parent] never raises and leaves its
    receiver alone; it is true exactly when the list holds one error, an
    instance of the parent error class, and then the receiver is not
    added. *)
Theorem dependencies_added_except_parent_spec
    (cls : ParentClass) (self : AddedDiagnostics) :
  after (_dependencies_added_except_parent cls) self = self
  /\ exists value,
       outcome (_dependencies_added_except_parent cls) self = Return value
       /\ (value = true
           <-> exists e,
                 errors self = [e]
                 /\ isinstance e (parent_error_class cls) = true)
       /\ value && is_added self = false.
Proof.
  unfold outcome, after. rewrite dependencies_added_except_parent_run.
  split; [reflexivity |]. eexists. split; [reflexivity |].
  destruct self as [[| e [| e' rest]]]; simpl.
  - repeat split; try discriminate. intros [e0 [H _]]; discriminate H.
  - repeat split; [intros H; now exists e | | apply andb_false_r].
    intros [e0 [Hone Hinst]]. now injection Hone as <-.
  - repeat split; try discriminate. intros [e0 [H _]]; discriminate H.
Qed.

(** X8: for the parent classes the module defines, an error of one of the
    children's error classes brought in by a merged child is never held
    back: [raise_for_errors_except_parent_not_added_error] after the merge
    raises the aggregate exception over the merged list. *)
Theorem merged_child_error_not_suppressed
    (cls : ParentClass) (children : list reference)
    (self : AddedDiagnostics) (child : reference) (e : error) :
  defined_parent_class cls ->
  In child children ->
  In e (errors (deref self child)) ->
  In (error_class e) (children_error_classes cls) ->
  outcome
    (update_with_children children ;;
     raise_for_errors_except_parent_not_added_error cls) self
  = Raise
      (Resources (exception_class cls)
         (errors (after (update_with_children children) self))).
Proof.
  intros Hcls Hchild He Hclass.
  unfold outcome at 1. rewrite bind_update_with_children.
  apply raise_except_parent_other_error with (e := e).
  - apply update_with_children_in_iff. right. now exists child.
  - now apply children_error_not_parent_error.
Qed.

Lemma merged_child_error_not_suppressed_witness :
  outcome
    (update_with_children [Other (mk_diagnostics [suite_error])] ;;
     raise_for_errors_except_parent_not_added_error
       ValidationDefinitionAddedDiagnostics)
    (mk_diagnostics [])
  = Raise
      (Resources ValidationDefinitionRelatedResourcesNotAddedError
         [suite_error]).
Proof.
  apply (@merged_child_error_not_suppressed
           ValidationDefinitionAddedDiagnostics
           [Other (mk_diagnostics [suite_error])]
           (mk_diagnostics [])
           (Other (mk_diagnostics [suite_error]))
           suite_error).
  - left. reflexivity.
  - simpl. left. reflexivity.
  - simpl. left. reflexivity.
  - simpl. left. reflexivity.
Defined.

(** X9: merging grandchildren into a child and then that child into the
    parent leaves the parent with the list it gets from merging the child
    and then the grandchildren directly. *)
Theorem nested_merge_flattens
    (grandchildren : list AddedDiagnostics)
    (child parent : AddedDiagnostics) :
  errors
    (after
       (update_with_children
          [Other (after (update_with_children (map Other grandchildren))
                    child)])
       parent)
  = errors
      (after (update_with_children (map Other (child :: grandchildren)))
         parent).
Proof.
  unfold after. rewrite !update_with_children_others.
  simpl. rewrite concat_app. simpl.
  now rewrite !app_nil_r, <- !app_assoc.
Qed.

(** X10: [raise_for_errors] of a childless and of a parent diagnostics
    returns exactly when [is_added] holds; the one of the base class raises
    [NotImplementedError] whatever the list. *)
Theorem raise_for_errors_returns_iff_added
    (cls : ParentClass) (self : AddedDiagnostics) :
  (outcome _ChildAddedDiagnostics.raise_for_errors self = Return tt
   <-> is_added self = true)
  /\ (outcome (raise_for_errors cls) self = Return tt
      <-> is_added self = true)
  /\ outcome AddedDiagnostics_.raise_for_errors self
     = Raise NotImplementedError.
Proof.
  unfold outcome.
  rewrite child_raise_for_errors_run, parent_raise_for_errors_run.
  destruct self as [[| e l]]; simpl;
    repeat split; intros H; (reflexivity || discriminate H).
Qed.

(** X11: merging children that are objects other than the parent leaves as
    many errors as the children and the parent held together. *)
Theorem merge_counts_every_error
    (children : list AddedDiagnostics) (self : AddedDiagnostics) :
  length (errors (after (update_with_children (map Other children)) self))
  = list_sum (map (fun child => length (errors child)) children)
    + length (errors self).
Proof.
  unfold after. revert self.
  induction children as [| child rest IH]; intros self.
  - reflexivity.
  - simpl map. rewrite update_with_children_cons, IH.
    simpl. rewrite length_app. lia.
Qed.

(** X12: a parent passed to its own merge doubles its list each time it is
    met: [n] times itself leaves [2 ^ n] times as many errors. *)
Theorem merge_with_itself_doubles (n : nat) (self : AddedDiagnostics) :
  length (errors (after (update_with_children (repeat Self n)) self))
  = 2 ^ n * length (errors self).
Proof.
  unfold after. revert self. induction n as [| n IH]; intros self.
  - simpl. lia.
  - simpl repeat. rewrite update_with_children_cons, IH.
    simpl errors. rewrite length_app, Nat.pow_succ_r'. lia.
Qed.
